(** * Neura design system: theme provider, style cache and themed components

    A shallow embedding of the behavioural core of the Neura design system:

    - [src/theme/colors.ts] and [src/theme/index.ts]: colour tokens, the
      [Theme] aggregate and the two canonical themes;
    - [src/providers/ThemeProvider.tsx]: the provider component, its
      selection state and the [useTheme] hook;
    - [src/utils/makeStyles.ts]: the style factory [createStyles] with its
      module-level cache, [createVariants] and [useVariant];
    - [src/components/ThemedText/index.tsx]: [getTextColor];
    - [src/components/ThemedButton/index.tsx]: the press handler.

    JavaScript objects are finite maps of own properties whose lookups fall
    through to [Object.prototype]; [Map] instances are plain finite maps;
    objects created at run time live in a heap and are compared by
    reference; a [throw] is an explicit completion. *)

From Stdlib Require Import Ascii String.
From stdpp Require Import base option list strings gmap.

#[local] Set Warnings "-clear-no-such-hyp".

Local Open Scope string_scope.

(** ** JavaScript values and completions *)

Module JS.

(** The properties every object literal inherits from [Object.prototype]
    (ECMAScript 2015, section 19.1.3 and annex B.2.2). *)
Definition objectPrototypeKeys : list string :=
  [ "constructor"; "hasOwnProperty"; "isPrototypeOf";
    "propertyIsEnumerable"; "toLocaleString"; "toString"; "valueOf";
    "__proto__"; "__defineGetter__"; "__defineSetter__";
    "__lookupGetter__"; "__lookupSetter__" ].

(** The outcome of reading [o[k]] on an object literal [o]. *)
Inductive Lookup (A : Type) : Type :=
| Own (a : A)                 (* an own property of the literal *)
| Inherited (member : string) (* a member of Object.prototype *)
| Undefined.                  (* undefined *)
Global Arguments Own {A} a.
Global Arguments Inherited {A} member.
Global Arguments Undefined {A}.

(** [o[k]]: own properties first, then the prototype. *)
Definition getProp {A} (o : gmap string A) (k : string) : Lookup A :=
  match o !! k with
  | Some a => Own a
  | None => if decide (k ∈ objectPrototypeKeys) then Inherited k else Undefined
  end.

(** [new Error(message)]. *)
Record Error : Type := mkError { message : string }.

(** How the evaluation of a function body ends. *)
Inductive Completion (A : Type) : Type :=
| Return (a : A)             (* return a *)
| Throw (e : Error)          (* throw e, executed by the body itself *)
| HostCall (member : string) (* tail call of Object.prototype[member];
                                what it completes with is the host's *).
Global Arguments Return {A} a.
Global Arguments Throw {A} e.
Global Arguments HostCall {A} member.

Definition bind {A B} (c : Completion A) (k : A → Completion B) : Completion B :=
  match c with
  | Return a => k a
  | Throw e => Throw e
  | HostCall m => HostCall m
  end.

(** JavaScript truthiness of a string: only the empty string is falsy. *)
Definition truthy (s : string) : bool :=
  match s with
  | EmptyString => false
  | String _ _ => true
  end.

End JS.

Global Instance Completion_ret : MRet JS.Completion := @JS.Return.
Global Instance Completion_bind : MBind JS.Completion :=
  λ A B k c, JS.bind c k.

(** ** Colour tokens ([src/theme/colors.ts]) *)

Module palette.
Definition primary50 := "#fffdf7".
Definition primary100 := "#fffaeb".
Definition primary200 := "#fff3c4".
Definition primary300 := "#ffe588".
Definition primary400 := "#ffd23f".
Definition primary500 := "#ffbe0b".
Definition primary600 := "#f59e0b".
Definition primary700 := "#d97706".
Definition primary800 := "#b45309".
Definition primary900 := "#92400e".
Definition secondary300 := "#d4d4d4".
Definition secondary400 := "#a3a3a3".
Definition secondary600 := "#525252".
Definition secondary700 := "#404040".
Definition neutral200 := "#e5e5e5".
Definition neutral300 := "#d4d4d4".
Definition neutral400 := "#a3a3a3".
Definition neutral500 := "#737373".
Definition neutral600 := "#525252".
Definition neutral700 := "#404040".
Definition success50 := "#f0fdf4".
Definition success100 := "#dcfce7".
Definition success500 := "#22c55e".
Definition success700 := "#15803d".
Definition error50 := "#fef2f2".
Definition error100 := "#fee2e2".
Definition error500 := "#ef4444".
Definition error700 := "#b91c1c".
Definition warning50 := "#fff7ed".
Definition warning100 := "#ffedd5".
Definition warning500 := "#f97316".
Definition warning700 := "#c2410c".
Definition info50 := "#eff6ff".
Definition info100 := "#dbeafe".
Definition info500 := "#3b82f6".
Definition info700 := "#1d4ed8".
Definition white := "#ffffff".
Definition black := "#000000".
End palette.

(** A colour role with its four shades ([primary], [secondary], [success],
    [error], [warning], [info], [golden]). *)
Record ColorRole : Type := mkColorRole {
  main : string;
  light_shade : string;
  dark_shade : string;
  contrast : string;
}.

Record BackgroundColors : Type := mkBackground {
  background_default : string;
  background_paper : string;
  background_elevated : string;
}.

Record SurfaceColors : Type := mkSurface {
  surface_default : string;
  surface_variant : string;
  surface_disabled : string;
}.

Record TextColors : Type := mkText {
  text_primary : string;
  text_secondary : string;
  text_disabled : string;
  text_inverse : string;
}.

Record BorderColors : Type := mkBorder {
  border_default : string;
  border_focused : string;
  border_disabled : string;
}.

(** [interface ColorTokens]. *)
Record Colors : Type := mkColors {
  primary : ColorRole;
  secondary : ColorRole;
  background : BackgroundColors;
  surface : SurfaceColors;
  text : TextColors;
  border : BorderColors;
  success : ColorRole;
  error : ColorRole;
  warning : ColorRole;
  info : ColorRole;
  golden : ColorRole;
}.

Definition lightColors : Colors := {|
  primary := mkColorRole palette.primary600 palette.primary400 palette.primary700 palette.black;
  secondary := mkColorRole palette.secondary600 palette.secondary400 palette.secondary700 palette.white;
  background := mkBackground "#f7f9fc" palette.white palette.white;
  surface := mkSurface palette.white "#f3f4f6" palette.neutral200;
  text := mkText "#2d3748" palette.neutral600 palette.neutral400 palette.white;
  border := mkBorder palette.neutral200 palette.primary600 palette.neutral300;
  success := mkColorRole palette.success500 palette.success100 palette.success700 palette.white;
  error := mkColorRole palette.error500 palette.error100 palette.error700 palette.white;
  warning := mkColorRole palette.warning500 palette.warning100 palette.warning700 palette.black;
  info := mkColorRole palette.info500 palette.info100 palette.info700 palette.white;
  golden := mkColorRole palette.primary600 palette.primary200 palette.primary700 palette.black;
|}.

Definition darkColors : Colors := {|
  primary := mkColorRole palette.primary500 palette.primary400 palette.primary600 palette.black;
  secondary := mkColorRole palette.secondary400 palette.secondary300 palette.secondary600 palette.black;
  background := mkBackground "#1a1d2e" "#252947" "#2d3253";
  surface := mkSurface "#252947" "#2d3253" palette.neutral600;
  text := mkText "#f7fafc" "#cbd5e0" palette.neutral500 palette.black;
  border := mkBorder "#4a5568" palette.primary500 palette.neutral700;
  success := mkColorRole palette.success500 palette.success50 palette.success700 palette.black;
  error := mkColorRole palette.error500 palette.error50 palette.error700 palette.white;
  warning := mkColorRole palette.warning500 palette.warning50 palette.warning700 palette.black;
  info := mkColorRole palette.info500 palette.info50 palette.info700 palette.white;
  golden := mkColorRole palette.primary500 palette.primary50 palette.primary700 palette.black;
|}.

(** [type ColorScheme = 'light' | 'dark']. *)
Inductive ColorScheme : Type := light | dark.

(** [ColorScheme | 'auto'], the type of the provider's selection. *)
Inductive Selection : Type :=
| explicit (scheme : ColorScheme)
| auto.

(** What react-native's [useColorScheme()] reports: ['light'], ['dark'], or
    [null]/[undefined] when the host does not know. *)
Inductive ColorSchemeName : Type := system_light | system_dark | system_unknown.

Global Instance ColorScheme_eq_dec : EqDecision ColorScheme.
Proof. solve_decision. Defined.
Global Instance Selection_eq_dec : EqDecision Selection.
Proof. solve_decision. Defined.
Global Instance ColorSchemeName_eq_dec : EqDecision ColorSchemeName.
Proof. solve_decision. Defined.

(** ** The theme aggregate ([src/theme/index.ts]) and the provider
       ([src/providers/ThemeProvider.tsx]) *)

Section Provider.

(** The twelve fields of [interface Theme] other than [colors]
    (typography, the three spacing scales, radii, icon, avatar and
    container sizes, [createRadius]).  Their values come out of the
    host's scaling functions and both canonical themes share them. *)
Context {Tokens : Type} (sharedTokens : Tokens).

Record Theme : Type := mkTheme {
  colors : Colors;
  tokens : Tokens;
}.

Definition lightTheme : Theme := {| colors := lightColors; tokens := sharedTokens |}.
Definition darkTheme : Theme := {| colors := darkColors; tokens := sharedTokens |}.

(** [themes[scheme]]. *)
Definition themes (scheme : ColorScheme) : Theme :=
  match scheme with
  | light => lightTheme
  | dark => darkTheme
  end.

Definition defaultTheme : Theme := lightTheme.

(** [interface ThemeContextType].  The two callbacks end in a call of
    the state setter [setUserColorScheme]; each is represented by the
    value it passes to the setter. *)
Record ThemeContextType : Type := mkContext {
  theme : Theme;
  colorScheme : ColorScheme;
  setColorScheme : Selection → Selection;
  toggleColorScheme : Selection;
  isDark : bool;
  isLight : bool;
}.

(** [interface ThemeProviderProps] without [children]. *)
Record ThemeProviderProps : Type := mkProps {
  initialColorScheme : option Selection;
  forcedTheme : option Theme;
}.

(** The initial value of the [useState] cell: [initialColorScheme = 'auto']
    by default. *)
Definition initialUserColorScheme (props : ThemeProviderProps) : Selection :=
  default auto (initialColorScheme props).

(** [const activeColorScheme = userColorScheme === 'auto'
      ? (systemColorScheme === 'dark' ? 'dark' : 'light')
      : userColorScheme]. *)
Definition activeColorScheme
    (userColorScheme : Selection) (systemColorScheme : ColorSchemeName) : ColorScheme :=
  match userColorScheme with
  | auto => if decide (systemColorScheme = system_dark) then dark else light
  | explicit scheme => scheme
  end.

(** One render of [ThemeProvider]: the context value handed to the
    children, given the props, the host's preference and the content of
    the state cell. *)
Definition ThemeProvider (props : ThemeProviderProps)
    (systemColorScheme : ColorSchemeName) (userColorScheme : Selection)
    : ThemeContextType :=
  let activeColorScheme := activeColorScheme userColorScheme systemColorScheme in
  let currentTheme := default (themes activeColorScheme) (forcedTheme props) in
  {| theme := currentTheme;
     colorScheme := activeColorScheme;
     setColorScheme := λ scheme, scheme;
     toggleColorScheme :=
       match userColorScheme with
       | auto =>
           explicit (if decide (systemColorScheme = system_dark) then light else dark)
       | explicit _ =>
           explicit (if decide (activeColorScheme = light) then dark else light)
       end;
     isDark := bool_decide (activeColorScheme = dark);
     isLight := bool_decide (activeColorScheme = light);
  |}.

(** A mounted provider: its props, the state cell and the host's current
    preference. *)
Record Mounted : Type := mkMounted {
  props : ThemeProviderProps;
  userColorScheme : Selection;
  systemColorScheme : ColorSchemeName;
}.

Definition mount (props : ThemeProviderProps) (system : ColorSchemeName) : Mounted :=
  {| props := props;
     userColorScheme := initialUserColorScheme props;
     systemColorScheme := system |}.

(** The context value of the current render. *)
Definition render (p : Mounted) : ThemeContextType :=
  ThemeProvider (props p) (systemColorScheme p) (userColorScheme p).

(** What can happen to a mounted provider between two renders. *)
Inductive Action : Type :=
| CallSetColorScheme (scheme : Selection)
| CallToggleColorScheme
| SystemPreferenceChanged (system : ColorSchemeName).

(** [setUserColorScheme(scheme)]: the state cell is overwritten. *)
Definition setUserColorScheme (p : Mounted) (scheme : Selection) : Mounted :=
  {| props := props p;
     userColorScheme := scheme;
     systemColorScheme := systemColorScheme p |}.

(** Callbacks are taken from the current render; a state update is
    followed by a re-render. *)
Definition step (p : Mounted) (a : Action) : Mounted :=
  match a with
  | CallSetColorScheme scheme =>
      setUserColorScheme p (setColorScheme (render p) scheme)
  | CallToggleColorScheme =>
      setUserColorScheme p (toggleColorScheme (render p))
  | SystemPreferenceChanged system =>
      {| props := props p;
         userColorScheme := userColorScheme p;
         systemColorScheme := system |}
  end.

Definition run (p : Mounted) (actions : list Action) : Mounted :=
  foldl step p actions.

(** The resolved scheme a consumer reads. *)
Definition resolved (p : Mounted) : ColorScheme := colorScheme (render p).

(** [useContext(ThemeContext)]: the value of the nearest enclosing
    provider, or the context's default, [undefined].  A scope is the
    list of context values of the enclosing providers, innermost
    first. *)
Definition useContext (scope : list ThemeContextType) : option ThemeContextType :=
  head scope.

Definition useTheme (scope : list ThemeContextType) : JS.Completion ThemeContextType :=
  match useContext scope with
  | None => JS.Throw (JS.mkError "useTheme must be used within a ThemeProvider")
  | Some context => JS.Return context
  end.

Definition useThemeTokens (scope : list ThemeContextType) : JS.Completion Theme :=
  context ← useTheme scope; mret (theme context).

End Provider.

Global Arguments Theme Tokens : clear implicits.
Global Arguments ThemeContextType Tokens : clear implicits.
Global Arguments ThemeProviderProps Tokens : clear implicits.
Global Arguments Mounted Tokens : clear implicits.

(** ** The style factory ([src/utils/makeStyles.ts]) *)

Section MakeStyles.

(** [T] is the type of the style maps ([NamedStyles<T>]). *)
Context {Tokens : Type} {T : Type}.

(** [type StyleCreator<T> = (theme: Theme) => T]. *)
Definition StyleCreator : Type := Theme Tokens → T.

(** The part of the JavaScript store the factory touches.  Style objects
    are heap cells named by their index; [styleCache] is the
    module-level [Map<string, any>] from cache keys to references.
    [creatorCalls] counts the style-creator invocations made so far; it
    does not exist at run time and no code reads it. *)
Record Store : Type := mkStore {
  styleCache : gmap string nat;
  heap : list T;
  creatorCalls : nat;
}.

Definition emptyStore : Store :=
  {| styleCache := ∅; heap := []; creatorCalls := 0 |}.

(** [`${theme.colors.primary.main}-${theme.colors.background.default}`]. *)
Definition cacheKey (theme : Theme Tokens) : string :=
  main (primary (colors theme)) +:+ "-" +:+
  background_default (background (colors theme)).

(** [StyleSheet.create(styleCreator(theme))]: the creator runs once and
    the expression evaluates to a reference to a new style object. *)
Definition StyleSheet_create (styleCreator : StyleCreator) (theme : Theme Tokens)
    (σ : Store) : nat * Store :=
  (length (heap σ),
   {| styleCache := styleCache σ;
      heap := heap σ ++ [styleCreator theme];
      creatorCalls := S (creatorCalls σ) |}).

(** The accessor [createStyles(styleCreator)], in state-passing style. *)
Definition createStyles (styleCreator : StyleCreator) (theme : Theme Tokens)
    (σ : Store) : nat * Store :=
  let cacheKey := cacheKey theme in
  match styleCache σ !! cacheKey with
  | Some styles => (styles, σ)
  | None =>
      let '(styles, σ) := StyleSheet_create styleCreator theme σ in
      (styles,
       {| styleCache := <[cacheKey := styles]> (styleCache σ);
          heap := heap σ;
          creatorCalls := creatorCalls σ |})
  end.

Definition clearStyleCache (σ : Store) : Store :=
  {| styleCache := ∅; heap := heap σ; creatorCalls := creatorCalls σ |}.

(** The style map a reference denotes. *)
Definition deref (σ : Store) (styles : nat) : option T := heap σ !! styles.

(** Calling one accessor on a sequence of themes, threading the store. *)
Fixpoint callAll (styleCreator : StyleCreator) (themes : list (Theme Tokens))
    (σ : Store) : list nat * Store :=
  match themes with
  | [] => ([], σ)
  | theme :: themes =>
      let '(styles, σ) := createStyles styleCreator theme σ in
      let '(rest, σ) := callAll styleCreator themes σ in
      (styles :: rest, σ)
  end.

(** [createVariants(variants)]: every own entry wrapped by
    [createStyles]. *)
Definition createVariants (variants : gmap string StyleCreator)
    : gmap string (Theme Tokens → Store → nat * Store) :=
  createStyles <$> variants.

End MakeStyles.

Global Arguments StyleCreator Tokens T : clear implicits.
Global Arguments Store T : clear implicits.

Section UseVariant.

Context {Tokens : Type} {R : Type}.

(** The double-quote character. *)
Definition dquote : string := String "034"%char EmptyString.

(** [new Error(`Variant "${String(variant)}" not found in variants object`)]. *)
Definition variantNotFound (variant : string) : JS.Error :=
  JS.mkError ("Variant " +:+ dquote +:+ variant +:+ dquote +:+
              " not found in variants object").

(** [useVariant(variants, variant)].  [R] is what a variant creator
    evaluates to.  The [useMemo] around the body re-evaluates it
    whenever an input changes and is left out. *)
Definition useVariant (scope : list (ThemeContextType Tokens))
    (variants : gmap string (Theme Tokens → R)) (variant : string)
    : JS.Completion R :=
  context ← useTheme scope;
  match JS.getProp variants variant with
  | JS.Undefined => JS.Throw (variantNotFound variant)
  | JS.Own variantCreator => mret (variantCreator (theme context))
  | JS.Inherited member => JS.HostCall member
  end.

End UseVariant.

(** ** ThemedText ([src/components/ThemedText/index.tsx]) *)

Section ThemedText.

Context {Tokens : Type}.

(** What [getTextColor] evaluates to: its signature promises a string,
    but a lookup that lands on [Object.prototype] yields a function (or
    the prototype object itself). *)
Inductive TextColor : Type :=
| ColorString (s : string)
| PrototypeMember (member : string).

(** The four keys of [colorMap]. *)
Definition namedTextColors : list string :=
  ["primary"; "secondary"; "disabled"; "inverse"].

Definition colorMap (theme : Theme Tokens) : gmap string string :=
  {[ "primary" := text_primary (text (colors theme));
     "secondary" := text_secondary (text (colors theme));
     "disabled" := text_disabled (text (colors theme));
     "inverse" := text_inverse (text (colors theme)) ]}.

(** [return colorMap[color] || color]. *)
Definition getTextColor (color : string) (theme : Theme Tokens) : TextColor :=
  match JS.getProp (colorMap theme) color with
  | JS.Own mapped => if JS.truthy mapped then ColorString mapped else ColorString color
  | JS.Inherited member => PrototypeMember member
  | JS.Undefined => ColorString color
  end.

(** The [color] entry of the style [ThemedText] hands to the host's
    [Text]; the [color] prop defaults to ['primary']. *)
Definition ThemedText (scope : list (ThemeContextType Tokens))
    (color : option string) : JS.Completion TextColor :=
  context ← useTheme scope;
  mret (getTextColor (default "primary" color) (theme context)).

End ThemedText.

(** ** ThemedButton ([src/components/ThemedButton/index.tsx]) *)

Module Button.

Inductive ButtonVariant : Type := filled | outlined | textual | elevated.
Inductive ButtonColor : Type :=
| primary | secondary | success | error | warning | golden.
Inductive ButtonSize : Type := small | medium | large.

Section Press.

(** [Event] is the type of the host's press events. *)
Context {Event : Type}.

(** A call of the caller's handler, with the event it received. *)
Inductive Call : Type := OnPress (event : Event).

(** [interface ThemedButtonProps], the fields the press path reads.
    [None] stands for a prop the caller left out. *)
Record ThemedButtonProps : Type := mkProps {
  variant : option ButtonVariant;
  color : option ButtonColor;
  size : option ButtonSize;
  loading : option bool;
  fullWidth : option bool;
  disabled : option bool;
  onPress : option (Event → list Call);
}.

(** [const isDisabled = disabled || loading], both [false] by
    default. *)
Definition isDisabled (p : ThemedButtonProps) : bool :=
  default false (disabled p) || default false (loading p).

(** [handlePress]: the calls it makes, in order. *)
Definition handlePress (p : ThemedButtonProps) (event : Event) : list Call :=
  if negb (isDisabled p) then
    match onPress p with
    | Some onPress => onPress event
    | None => []
    end
  else [].

(** The props [ThemedButton] passes to [TouchableOpacity] that bear on
    presses. *)
Record Touchable : Type := mkTouchable {
  touchable_onPress : Event → list Call;
  touchable_disabled : bool;
  accessibility_disabled : bool;
  accessibility_busy : bool;
}.

Definition ThemedButton (p : ThemedButtonProps) : Touchable :=
  {| touchable_onPress := handlePress p;
     touchable_disabled := isDisabled p;
     accessibility_disabled := isDisabled p;
     accessibility_busy := default false (loading p) |}.

(** A handler that does nothing but be called. *)
Definition recordPress : Event → list Call := λ event, [OnPress event].

End Press.

Global Arguments Call Event : clear implicits.
Global Arguments ThemedButtonProps Event : clear implicits.
Global Arguments Touchable Event : clear implicits.

End Button.

(** ** Concrete inputs used below *)

Module Inputs.

(** A theme that is [lightTheme] except for the primary text colour. *)
Definition highContrastLight : Theme unit :=
  let light := lightTheme tt in
  {| colors :=
       {| primary := primary (colors light);
          secondary := secondary (colors light);
          background := background (colors light);
          surface := surface (colors light);
          text :=
            {| text_primary := palette.black;
               text_secondary := text_secondary (text (colors light));
               text_disabled := text_disabled (text (colors light));
               text_inverse := text_inverse (text (colors light)) |};
          border := border (colors light);
          success := success (colors light);
          error := error (colors light);
          warning := warning (colors light);
          info := info (colors light);
          golden := golden (colors light) |};
     tokens := tokens light |}.

(** [(theme) => ({ label: { color: theme.colors.text.primary } })], the
    style map represented by the one value it holds. *)
Definition labelStyles : StyleCreator unit string :=
  λ theme, text_primary (text (colors theme)).

(** [(theme) => ({ box: { backgroundColor: theme.colors.surface.variant } })]. *)
Definition boxStyles : StyleCreator unit string :=
  λ theme, surface_variant (surface (colors theme)).

(** The context a default [<ThemeProvider>] provides on a light host. *)
Definition lightScope : list (ThemeContextType unit) :=
  [ThemeProvider tt (mkProps None None) system_light auto].

(** [createVariants({ label: labelStyles, box: boxStyles })]. *)
Definition variants : gmap string (Theme unit → Store string → nat * Store string) :=
  createVariants {[ "label" := labelStyles; "box" := boxStyles ]}.

(** A button with every visual prop at its default, disabled, whose
    handler records the presses it receives. *)
Definition disabledButton : Button.ThemedButtonProps nat :=
  {| Button.variant := None; Button.color := None; Button.size := None;
     Button.loading := None; Button.fullWidth := None;
     Button.disabled := Some true;
     Button.onPress := Some Button.recordPress |}.

End Inputs.

(** ** The remaining hooks of the provider
       ([src/providers/ThemeProvider.tsx]) *)

Section ColorSchemeUtils.

Context {Tokens : Type}.

(** What [useColorSchemeUtils] returns.  As in [ThemeContextType], a
    callback is represented by the value it passes to the state
    setter. *)
Record ColorSchemeUtils : Type := mkUtils {
  utils_colorScheme : ColorScheme;
  utils_setColorScheme : Selection → Selection;
  utils_toggleColorScheme : Selection;
  utils_isDark : bool;
  utils_isLight : bool;
  setLight : Selection;
  setDark : Selection;
  setAuto : Selection;
}.

Definition useColorSchemeUtils (scope : list (ThemeContextType Tokens))
    : JS.Completion ColorSchemeUtils :=
  context ← useTheme scope;
  mret {| utils_colorScheme := colorScheme context;
          utils_setColorScheme := setColorScheme context;
          utils_toggleColorScheme := toggleColorScheme context;
          utils_isDark := isDark context;
          utils_isLight := isLight context;
          setLight := setColorScheme context (explicit light);
          setDark := setColorScheme context (explicit dark);
          setAuto := setColorScheme context auto |}.

(** The other scheme. *)
Definition opposite (scheme : ColorScheme) : ColorScheme :=
  match scheme with
  | light => dark
  | dark => light
  end.

(** A caller's move that is not a call of [setColorScheme]: a toggle
    ([None]) or a change of the host's preference. *)
Definition toggleOrChange (move : option ColorSchemeName) : Action :=
  match move with
  | Some system => SystemPreferenceChanged system
  | None => CallToggleColorScheme
  end.

(** The number of toggles among such moves. *)
Definition toggles (moves : list (option ColorSchemeName)) : nat :=
  length (filter (λ move, move = None) moves).

End ColorSchemeUtils.

Global Arguments ColorSchemeUtils : clear implicits.

(** ** The remaining exports of the style factory
       ([src/utils/makeStyles.ts]) *)

Section StyleHooks.

Context {Tokens : Type} {T : Type}.

(** What the module's clients can do to the store. *)
Inductive CacheOp : Type :=
| CallAccessor (styleCreator : StyleCreator Tokens T) (theme : Theme Tokens)
| ClearStyleCache.

Definition applyOp (σ : Store T) (op : CacheOp) : Store T :=
  match op with
  | CallAccessor styleCreator theme => (createStyles styleCreator theme σ).2
  | ClearStyleCache => clearStyleCache σ
  end.

Definition applyOps (σ : Store T) (ops : list CacheOp) : Store T :=
  foldl applyOp σ ops.

(** The hook [createStylesHook(styleCreator)].  It reads the theme from
    the context and calls a new accessor on it; the [useMemo] around the
    call re-evaluates it whenever the theme changes and is left out.  A
    hook that throws leaves the store as it found it. *)
Definition createStylesHook (styleCreator : StyleCreator Tokens T)
    (scope : list (ThemeContextType Tokens)) (σ : Store T)
    : JS.Completion nat * Store T :=
  match useTheme scope with
  | JS.Return context =>
      let '(styles, σ) := createStyles styleCreator (theme context) σ in
      (JS.Return styles, σ)
  | JS.Throw e => (JS.Throw e, σ)
  | JS.HostCall member => (JS.HostCall member, σ)
  end.

(** [useMakeStyles(styleCreator)]: the same body, memoized on the creator
    as well. *)
Definition useMakeStyles (styleCreator : StyleCreator Tokens T)
    (scope : list (ThemeContextType Tokens)) (σ : Store T)
    : JS.Completion nat * Store T :=
  match useTheme scope with
  | JS.Return context =>
      let '(styles, σ) := createStyles styleCreator (theme context) σ in
      (JS.Return styles, σ)
  | JS.Throw e => (JS.Throw e, σ)
  | JS.HostCall member => (JS.HostCall member, σ)
  end.

(** [useResponsiveStyles(styleCreator, dimensions)]:
    [StyleSheet.create(styleCreator(theme, dimensions))], past the
    cache. *)
Definition useResponsiveStyles {D : Type} (styleCreator : Theme Tokens → D → T)
    (dimensions : D) (scope : list (ThemeContextType Tokens)) (σ : Store T)
    : JS.Completion nat * Store T :=
  match useTheme scope with
  | JS.Return context =>
      let '(styles, σ) :=
        StyleSheet_create (λ theme, styleCreator theme dimensions) (theme context) σ in
      (JS.Return styles, σ)
  | JS.Throw e => (JS.Throw e, σ)
  | JS.HostCall member => (JS.HostCall member, σ)
  end.

(** [useThemeDimensions(dimensionCreator)]. *)
Definition useThemeDimensions {D : Type} (dimensionCreator : Theme Tokens → D)
    (scope : list (ThemeContextType Tokens)) : JS.Completion D :=
  context ← useTheme scope;
  mret (dimensionCreator (theme context)).

(** [conditionalStyle(condition, trueStyle, falseStyle)]. *)
Definition conditionalStyle {S : Type} (condition : bool) (trueStyle falseStyle : S) : S :=
  if condition then trueStyle else falseStyle.

End StyleHooks.

Global Arguments CacheOp Tokens T : clear implicits.

(** ** The styles of ThemedButton
       ([src/components/ThemedButton/index.tsx]) *)

Module ButtonStyles.

(** [Platform.OS]. *)
Inductive Platform : Type := ios | android | otherPlatform.

(** How the button reads the tokens of a theme that are not colours:
    [theme.radius.md], [theme.spacing[i]] and the font size and line
    height of [theme.typography[variant]].  [Num] is the type of the
    numbers the host's scaling functions produce. *)
Record TokenReader (Tokens Num : Type) : Type := mkReader {
  radius_md : Tokens → Num;
  spacing : Tokens → nat → Num;
  fontSize : Tokens → string → Num;
  lineHeight : Tokens → string → Num;
}.
Global Arguments radius_md {Tokens Num} _ _.
Global Arguments spacing {Tokens Num} _ _ _.
Global Arguments fontSize {Tokens Num} _ _ _.
Global Arguments lineHeight {Tokens Num} _ _ _.

(** The value of a style property. *)
Inductive StyleValue (Num : Type) : Type :=
| str (s : string)                  (* a string: a colour, a keyword, '100%' *)
| token (n : Num)                   (* a number read from the theme *)
| number (z : Z)                    (* an integer literal *)
| decimal (digits : Z) (places : nat) (* the literal digits / 10^places *)
| extent (width height : Z).        (* { width, height } *)
Global Arguments str {Num} s.
Global Arguments token {Num} n.
Global Arguments number {Num} z.
Global Arguments decimal {Num} digits places.
Global Arguments extent {Num} width height.

Section Styles.

Context {Tokens Num : Type} (read : TokenReader Tokens Num) (OS : Platform).

(** A [ViewStyle] or [TextStyle] object is the finite map of its own
    properties.  [{ ...base, k1: v1, ..., kn: vn }]: later entries win. *)
Definition assign (base : gmap string (StyleValue Num))
    (entries : list (string * StyleValue Num)) : gmap string (StyleValue Num) :=
  foldl (λ o entry, <[entry.1 := entry.2]> o) base entries.

(** [{ ...base, ...later }]. *)
Definition spread (base later : gmap string (StyleValue Num))
    : gmap string (StyleValue Num) :=
  later ∪ base.

(** The [switch] statements below range over the typed values of
    [ButtonColor], [ButtonVariant] and [ButtonSize]; their [default]
    branches are out of reach of typed callers and are left out. *)
Definition getButtonColor (color : Button.ButtonColor) (theme : Theme Tokens) : ColorRole :=
  match color with
  | Button.primary => primary (colors theme)
  | Button.secondary => secondary (colors theme)
  | Button.success => success (colors theme)
  | Button.error => error (colors theme)
  | Button.warning => warning (colors theme)
  | Button.golden => golden (colors theme)
  end.

Definition iosBase : Z := 44.
Definition androidBase : Z := 48.

Definition isIos : bool :=
  match OS with
  | ios => true
  | _ => false
  end.

Definition getSizeStyles (size : Button.ButtonSize) (theme : Theme Tokens)
    : gmap string (StyleValue Num) :=
  match size with
  | Button.small =>
      assign ∅
        [ ("paddingHorizontal", token (spacing read (tokens theme) 4));
          ("paddingVertical", token (spacing read (tokens theme) 2));
          ("minHeight", number (if isIos then iosBase - 8 else androidBase - 8)) ]
  | Button.medium =>
      assign ∅
        [ ("paddingHorizontal", token (spacing read (tokens theme) 6));
          ("paddingVertical", token (spacing read (tokens theme) 3));
          ("minHeight", number (if isIos then iosBase else androidBase)) ]
  | Button.large =>
      assign ∅
        [ ("paddingHorizontal", token (spacing read (tokens theme) 8));
          ("paddingVertical", token (spacing read (tokens theme) 4));
          ("minHeight", number (if isIos then iosBase + 8 else androidBase + 8)) ]
  end.

Definition getTextSizeStyles (size : Button.ButtonSize) (theme : Theme Tokens)
    : gmap string (StyleValue Num) :=
  let typography := match size with
                    | Button.small => "labelMedium"
                    | Button.medium => "labelLarge"
                    | Button.large => "titleMedium"
                    end in
  assign ∅
    [ ("fontSize", token (fontSize read (tokens theme) typography));
      ("lineHeight", token (lineHeight read (tokens theme) typography)) ].

Definition getButtonStyles (variant : Button.ButtonVariant) (color : Button.ButtonColor)
    (size : Button.ButtonSize) (disabled fullWidth : bool) (theme : Theme Tokens)
    : gmap string (StyleValue Num) :=
  let baseStyle :=
    spread
      (spread
         (assign ∅
            [ ("borderRadius", token (radius_md read (tokens theme)));
              ("alignItems", str "center");
              ("justifyContent", str "center");
              ("flexDirection", str "row") ])
         (getSizeStyles size theme))
      (if fullWidth then assign ∅ [("width", str "100%")] else ∅) in
  if disabled then
    assign baseStyle
      [ ("backgroundColor", str (surface_disabled (surface (colors theme))));
        ("borderColor", str (border_disabled (border (colors theme))));
        ("borderWidth",
         number (match variant with Button.outlined => 1 | _ => 0 end));
        ("opacity", decimal 6 1) ]
  else
    let buttonColor := getButtonColor color theme in
    match variant with
    | Button.filled =>
        assign baseStyle [("backgroundColor", str (main buttonColor))]
    | Button.outlined =>
        assign baseStyle
          [ ("backgroundColor", str "transparent");
            ("borderColor", str (main buttonColor));
            ("borderWidth", number 1) ]
    | Button.textual =>
        assign baseStyle [("backgroundColor", str "transparent")]
    | Button.elevated =>
        assign baseStyle
          [ ("backgroundColor", str (surface_variant (surface (colors theme))));
            ("shadowColor", str "#000");
            ("shadowOffset", extent 0 2);
            ("shadowOpacity", decimal 1 1);
            ("shadowRadius", number 4);
            ("elevation", number 2) ]
    end.

Definition getTextStyles (variant : Button.ButtonVariant) (color : Button.ButtonColor)
    (size : Button.ButtonSize) (disabled : bool) (theme : Theme Tokens)
    : gmap string (StyleValue Num) :=
  let baseStyle :=
    spread
      (assign ∅ [ ("fontWeight", str "600"); ("textAlign", str "center") ])
      (getTextSizeStyles size theme) in
  if disabled then
    assign baseStyle [("color", str (text_disabled (text (colors theme))))]
  else
    let buttonColor := getButtonColor color theme in
    match variant with
    | Button.filled | Button.elevated =>
        assign baseStyle [("color", str (contrast buttonColor))]
    | Button.outlined | Button.textual =>
        assign baseStyle [("color", str (main buttonColor))]
    end.

Definition getSpinnerColor (variant : Button.ButtonVariant) (color : Button.ButtonColor)
    (theme : Theme Tokens) : string :=
  let buttonColor := getButtonColor color theme in
  match variant with
  | Button.filled | Button.elevated => contrast buttonColor
  | Button.outlined | Button.textual => main buttonColor
  end.

(** What [ThemedButton] computes for the host besides the press props:
    the two styles, the colour of the spinner when there is one, and
    [activeOpacity]. *)
Record ButtonView : Type := mkView {
  buttonStyles : gmap string (StyleValue Num);
  textStyles : gmap string (StyleValue Num);
  spinner : option string;
  activeOpacity : StyleValue Num;
  accessibilityRole : string;
}.

Definition ThemedButtonView {Event : Type} (scope : list (ThemeContextType Tokens))
    (p : Button.ThemedButtonProps Event) : JS.Completion ButtonView :=
  context ← useTheme scope;
  let theme := theme context in
  let variant := default Button.filled (Button.variant p) in
  let color := default Button.primary (Button.color p) in
  let size := default Button.medium (Button.size p) in
  let loading := default false (Button.loading p) in
  let fullWidth := default false (Button.fullWidth p) in
  let isDisabled := Button.isDisabled p in
  mret {| buttonStyles := getButtonStyles variant color size isDisabled fullWidth theme;
          textStyles := getTextStyles variant color size isDisabled theme;
          spinner := if loading then Some (getSpinnerColor variant color theme) else None;
          activeOpacity := if isDisabled then number 1 else decimal 7 1;
          accessibilityRole := "button" |}.

End Styles.

Global Arguments ButtonView Num : clear implicits.

End ButtonStyles.

(** ** The custom matchers ([src/components/shared/test.utils.ts]) *)

Module TestUtils.

(** The props of the received element the matchers read.  A handler is
    represented by whether it is defined; [accessibilityState_disabled]
    is [props.accessibilityState?.disabled]. *)
Record ReceivedProps : Type := mkReceivedProps {
  accessibilityRole : option string;
  accessibilityLabel : option string;
  onPress : bool;
  onClick : bool;
  onStartShouldSetResponder : bool;
  accessibilityState_disabled : option bool;
  disabled : option bool;
}.

Inductive Child : Type :=
| StringChild (s : string)
| ElementChild.

Record Received : Type := mkReceived {
  element_type : string;
  props : ReceivedProps;
  children : list Child;
}.

Definition isString (child : Child) : bool :=
  match child with
  | StringChild _ => true
  | ElementChild => false
  end.

(** The [pass] field of [toBeAccessible(received)]. *)
Definition toBeAccessible (received : Received) : bool :=
  let props := props received in
  let hasAccessibilityRole := bool_decide (is_Some (accessibilityRole props)) in
  let hasAccessibilityLabel := bool_decide (is_Some (accessibilityLabel props)) in
  let hasTextContent := existsb isString (children received) in
  let isButton :=
    bool_decide (element_type received = "TouchableOpacity") ||
    bool_decide (accessibilityRole props = Some "button") in
  let isText :=
    bool_decide (element_type received = "Text") ||
    bool_decide (element_type received = "RCTText") in
  if isButton then hasAccessibilityRole
  else if isText then hasTextContent || hasAccessibilityLabel
  else hasAccessibilityRole || hasTextContent.

(** The [pass] field of [toBeResponsive(received)]. *)
Definition toBeResponsive (received : Received) : bool :=
  let props := props received in
  let hasOnPress := onPress props in
  let hasClickHandler := onClick props in
  let hasResponderHandlers := onStartShouldSetResponder props in
  let isNotDisabled :=
    negb (bool_decide (accessibilityState_disabled props = Some true)) &&
    negb (bool_decide (disabled props = Some true)) in
  let hasButtonRole := bool_decide (accessibilityRole props = Some "button") in
  let isInteractive :=
    hasOnPress || (hasClickHandler && hasButtonRole) ||
    (hasResponderHandlers && hasButtonRole) in
  isInteractive && isNotDisabled.

(** The props [ThemedButton] itself puts on its [TouchableOpacity], for a
    caller that passes no further ones. *)
Definition touchableProps {Event : Type} (p : Button.ThemedButtonProps Event)
    : ReceivedProps :=
  let touchable := Button.ThemedButton p in
  {| accessibilityRole := Some "button";
     accessibilityLabel := None;
     onPress := true;
     onClick := false;
     onStartShouldSetResponder := false;
     accessibilityState_disabled := Some (Button.accessibility_disabled touchable);
     disabled := Some (Button.touchable_disabled touchable) |}.

End TestUtils.

(** ** What the cache holds *)

Section CacheInvariant.

Context {Tokens : Type} {T : Type}.

(** The calls of accessors among the operations. *)
Definition accessorCalls (ops : list (CacheOp Tokens T))
    : list (StyleCreator Tokens T * Theme Tokens) :=
  omap (λ op, match op with
              | CallAccessor styleCreator theme => Some (styleCreator, theme)
              | ClearStyleCache => None
              end) ops.

(** Every cache entry refers to the style map that one of the [calls]
    computed, for a theme with the entry's key. *)
Definition cacheOrigin (calls : list (StyleCreator Tokens T * Theme Tokens))
    (σ : Store T) : Prop :=
  ∀ (key : string) (styles : nat),
    styleCache σ !! key = Some styles →
    ∃ styleCreator theme,
      (styleCreator, theme) ∈ calls ∧
      cacheKey theme = key ∧
      deref σ styles = Some (styleCreator theme).

End CacheInvariant.

(** * Properties *)

Local Open Scope nat_scope.

(** ** The provider *)

Section ProviderProperties.

Context {Tokens : Type} (sharedTokens : Tokens).

Implicit Types (props : ThemeProviderProps Tokens) (p : Mounted Tokens).
Implicit Types (s : Selection) (x : ColorScheme) (e : ColorSchemeName).

Local Abbreviation resolved := (resolved sharedTokens).
Local Abbreviation step := (step sharedTokens).
Local Abbreviation run := (run sharedTokens).
Local Abbreviation render := (render sharedTokens).

Lemma resolved_unfold p :
  resolved p = activeColorScheme (userColorScheme p) (systemColorScheme p).
Proof. reflexivity. Qed.

Lemma run_cons p (a : Action) (actions : list Action) :
  run p (a :: actions) = run (step p a) actions.
Proof. reflexivity. Qed.

(** A change of the host's preference leaves the state cell alone. *)
Lemma run_system_changes_selection p (changes : list ColorSchemeName) :
  userColorScheme (run p (SystemPreferenceChanged <$> changes)) = userColorScheme p.
Proof.
  revert p. induction changes as [|e changes IH]; intros p; [done|].
  rewrite fmap_cons, run_cons, IH. done.
Qed.

Lemma run_system_changes_props p (changes : list ColorSchemeName) :
  props (run p (SystemPreferenceChanged <$> changes)) = props p.
Proof.
  revert p. induction changes as [|e changes IH]; intros p; [done|].
  rewrite fmap_cons, run_cons, IH. done.
Qed.

(** The resolved scheme of an explicit selection is that selection,
    whatever the host reports now or later. *)
Lemma resolved_explicit_stable props x e (changes : list ColorSchemeName) :
  resolved (run (mkMounted props (explicit x) e) (SystemPreferenceChanged <$> changes)) = x.
Proof.
  rewrite resolved_unfold, run_system_changes_selection. done.
Qed.

(** The resolved scheme is never anything but light or dark, and the
    two flags of the context value agree with it. *)
Lemma context_flags p :
  isDark (render p) = bool_decide (resolved p = dark) ∧
  isLight (render p) = bool_decide (resolved p = light) ∧
  isDark (render p) = negb (isLight (render p)).
Proof.
  repeat split; try done.
  cbn. by destruct (activeColorScheme _ _).
Qed.

(** The theme handed to consumers is the forced theme when there is one,
    and the canonical theme of the resolved scheme otherwise. *)
Lemma context_theme p :
  theme (render p) =
    match forcedTheme (props p) with
    | Some forced => forced
    | None => themes sharedTokens (resolved p)
    end.
Proof. cbn. by destruct (forcedTheme (props p)). Qed.

(** C2.  The provider resolves the active scheme as the selection itself
    when the selection is explicit — whatever the environment
    preference is, and whatever it later changes to — and as the
    environment preference when the selection is auto, an unknown
    preference counting as light. *)
Theorem resolve_active_scheme :
  (∀ props s e,
     resolved (mkMounted props s e) =
       match s with
       | explicit x => x
       | auto =>
           match e with
           | system_light => light
           | system_dark => dark
           | system_unknown => light
           end
       end) ∧
  (∀ props x e (changes : list ColorSchemeName),
     resolved (run (mkMounted props (explicit x) e)
                   (SystemPreferenceChanged <$> changes)) = x).
Proof.
  split.
  - intros props [x|] e; [done|]. by destruct e.
  - apply resolved_explicit_stable.
Qed.

(** The scenario of the specification: mounted with "auto" under a dark
    environment the provider resolves dark; after [setColorScheme("light")]
    it resolves light and keeps doing so when the environment changes. *)
Example scenario_auto_dark_then_light props (changes : list ColorSchemeName) :
  let p0 := mkMounted props auto system_dark in
  let p1 := step p0 (CallSetColorScheme (explicit light)) in
  resolved p0 = dark ∧
  resolved p1 = light ∧
  resolved (run p1 (SystemPreferenceChanged <$> changes)) = light.
Proof.
  cbn zeta. repeat split.
  apply (resolved_explicit_stable props light system_dark).
Qed.

(** What a toggle writes to the state cell, for any mounted provider. *)
Lemma toggle_selection p :
  userColorScheme (step p CallToggleColorScheme) =
    match userColorScheme p with
    | auto =>
        explicit (if decide (systemColorScheme p = system_dark) then light else dark)
    | explicit x => explicit (if decide (x = light) then dark else light)
    end.
Proof. by destruct p as [props [x|] e]. Qed.

Lemma toggle_selection_explicit p :
  ∃ x, userColorScheme (step p CallToggleColorScheme) = explicit x.
Proof. rewrite toggle_selection. destruct (userColorScheme p); eauto. Qed.

(** C3.  [toggleColorScheme] sets the selection to the explicit opposite
    of the environment's current preference when the selection is auto
    (a dark preference gives light, any other gives dark), and flips an
    explicit selection between light and dark. *)
Theorem toggle_sets_selection props e :
  userColorScheme (step (mkMounted props auto e) CallToggleColorScheme) =
    match e with
    | system_dark => explicit light
    | system_light => explicit dark
    | system_unknown => explicit dark
    end ∧
  userColorScheme (step (mkMounted props (explicit light) e) CallToggleColorScheme) =
    explicit dark ∧
  userColorScheme (step (mkMounted props (explicit dark) e) CallToggleColorScheme) =
    explicit light.
Proof. by destruct e. Qed.

(** Toggling touches neither the props nor the host's preference. *)
Lemma toggle_frame p :
  props (step p CallToggleColorScheme) = props p ∧
  systemColorScheme (step p CallToggleColorScheme) = systemColorScheme p.
Proof. done. Qed.

(** C4.  From an explicit selection and under a fixed environment
    preference, two toggles bring back the resolved scheme they started
    from (indeed the whole provider state). *)
Theorem toggle_twice_explicit props x e :
  let p := mkMounted props (explicit x) e in
  resolved (run p [CallToggleColorScheme; CallToggleColorScheme]) = resolved p ∧
  run p [CallToggleColorScheme; CallToggleColorScheme] = p.
Proof.
  destruct x, e; done.
Qed.

(** The two toggles are two events, the second served by the re-render
    that follows the first.  A caller that invokes the callback of one
    render twice in a row writes the same selection twice. *)
Example toggle_same_render_twice props e :
  let p := mkMounted props (explicit light) e in
  let toggle := toggleColorScheme (render p) in
  userColorScheme
    (setUserColorScheme (setUserColorScheme p toggle) toggle)
  = explicit dark.
Proof. reflexivity. Qed.

(** From auto the second toggle need not bring auto back: the selection
    stays explicit. *)
Example toggle_twice_auto props :
  userColorScheme
    (run (mkMounted props auto system_dark) [CallToggleColorScheme; CallToggleColorScheme])
  = explicit dark.
Proof. reflexivity. Qed.

(** C10.  After a call of [toggleColorScheme] the selection is an
    explicit scheme, never auto, and from then on changes of the
    environment preference leave the resolved scheme as it is. *)
Theorem toggle_leaves_explicit p :
  let p' := step p CallToggleColorScheme in
  (∃ x, userColorScheme p' = explicit x) ∧
  userColorScheme p' ≠ auto ∧
  (∀ changes : list ColorSchemeName,
     resolved (run p' (SystemPreferenceChanged <$> changes)) = resolved p').
Proof.
  cbn zeta.
  destruct (toggle_selection_explicit p) as [x Hx].
  split; [eauto|]. split; [congruence|].
  intros changes.
  rewrite !resolved_unfold, run_system_changes_selection, Hx. done.
Qed.

(** Only [setColorScheme] brings auto back. *)
Lemma selection_stays_explicit p (actions : list (option ColorSchemeName)) :
  let act := λ a : option ColorSchemeName,
    match a with
    | Some e => SystemPreferenceChanged e
    | None => CallToggleColorScheme
    end in
  userColorScheme (run (step p CallToggleColorScheme) (act <$> actions)) ≠ auto.
Proof.
  cbn zeta.
  assert (userColorScheme (step p CallToggleColorScheme) ≠ auto) as Hne.
  { destruct (toggle_selection_explicit p) as [x Hx]. congruence. }
  revert Hne. generalize (step p CallToggleColorScheme). clear p.
  induction actions as [|a actions IH]; intros p Hne; [done|].
  rewrite fmap_cons, run_cons. apply IH. destruct a as [e|]; [done|].
  destruct (toggle_selection_explicit p) as [x Hx]. congruence.
Qed.

(** C5.  Outside of any provider [useTheme] throws its configuration
    error and returns no context value. *)
Theorem useTheme_outside_provider :
  useTheme (Tokens:=Tokens) [] =
    JS.Throw (JS.mkError "useTheme must be used within a ThemeProvider") ∧
  (∀ context, useTheme (Tokens:=Tokens) [] ≠ JS.Return context) ∧
  (∀ theme, useThemeTokens (Tokens:=Tokens) [] ≠ JS.Return theme).
Proof. done. Qed.

(** Inside a provider it returns the innermost context value. *)
Lemma useTheme_inside_provider (context : ThemeContextType Tokens) scope :
  useTheme (context :: scope) = JS.Return context.
Proof. done. Qed.

(** [useTheme] throws exactly when no provider encloses the caller. *)
Lemma useTheme_throws_iff (scope : list (ThemeContextType Tokens)) :
  (∃ err, useTheme scope = JS.Throw err) ↔ scope = [].
Proof.
  destruct scope as [|context scope]; cbn; split; try done.
  - eauto.
  - intros [err ?]. done.
Qed.

End ProviderProperties.

(** ** Two counting facts about finite sets of keys *)

Lemma size_union_le (X Y : gset string) : size (X ∪ Y) ≤ size X + size Y.
Proof.
  rewrite size_union_alt.
  assert (size (Y ∖ X) ≤ size Y) by (apply subseteq_size; set_solver).
  lia.
Qed.

Lemma size_list_to_set_le (keys : list string) :
  size (list_to_set keys : gset string) ≤ length keys.
Proof.
  induction keys as [|key keys IH]; cbn.
  - by rewrite size_empty.
  - pose proof (size_union_le {[key]} (list_to_set keys)) as Hle.
    rewrite size_singleton in Hle. lia.
Qed.

(** ** The style factory *)

Section MakeStylesProperties.

Context {Tokens T : Type}.

Implicit Types (styleCreator : StyleCreator Tokens T) (theme : Theme Tokens).
Implicit Types (σ : Store T).

(** A cache hit returns the cached reference and changes nothing. *)
Lemma createStyles_hit styleCreator theme σ styles :
  styleCache σ !! cacheKey theme = Some styles →
  createStyles styleCreator theme σ = (styles, σ).
Proof. intros Hhit. unfold createStyles. by rewrite Hhit. Qed.

(** A cache miss runs the creator once, allocates its result and caches
    the new reference under the theme's key. *)
Lemma createStyles_miss styleCreator theme σ :
  styleCache σ !! cacheKey theme = None →
  createStyles styleCreator theme σ =
    (length (heap σ),
     {| styleCache := <[cacheKey theme := length (heap σ)]> (styleCache σ);
        heap := heap σ ++ [styleCreator theme];
        creatorCalls := S (creatorCalls σ) |}).
Proof. intros Hmiss. unfold createStyles. by rewrite Hmiss. Qed.

(** After a miss the returned reference denotes the style map of the
    theme that was passed. *)
Lemma createStyles_miss_deref styleCreator theme σ :
  styleCache σ !! cacheKey theme = None →
  let '(styles, σ') := createStyles styleCreator theme σ in
  deref σ' styles = Some (styleCreator theme).
Proof.
  intros Hmiss. rewrite createStyles_miss by done.
  unfold deref; cbn. by rewrite list_lookup_middle.
Qed.

(** After any call the theme's key is cached, bound to the reference that
    was returned. *)
Lemma createStyles_cached styleCreator theme σ :
  let '(styles, σ') := createStyles styleCreator theme σ in
  styleCache σ' !! cacheKey theme = Some styles.
Proof.
  destruct (styleCache σ !! cacheKey theme) as [styles|] eqn:Hkey.
  - by rewrite (createStyles_hit _ _ _ styles).
  - rewrite createStyles_miss by done. cbn. apply lookup_insert_eq.
Qed.

(** C7.  Two successive calls of an accessor with the same theme return
    the same reference; the second call leaves the store as it is, and
    the two together run the style creator at most once. *)
Theorem createStyles_same_theme_same_object styleCreator theme σ :
  let '(first, σ1) := createStyles styleCreator theme σ in
  let '(second, σ2) := createStyles styleCreator theme σ1 in
  second = first ∧
  σ2 = σ1 ∧
  creatorCalls σ2 = creatorCalls σ1 ∧
  creatorCalls σ2 ≤ S (creatorCalls σ).
Proof.
  pose proof (createStyles_cached styleCreator theme σ) as Hcached.
  destruct (createStyles styleCreator theme σ) as [first σ1] eqn:Hfirst.
  rewrite (createStyles_hit _ _ _ first) by done.
  repeat split.
  destruct (styleCache σ !! cacheKey theme) as [styles|] eqn:Hkey.
  - rewrite (createStyles_hit _ _ _ styles) in Hfirst by done.
    injection Hfirst as _ <-. lia.
  - rewrite createStyles_miss in Hfirst by done.
    injection Hfirst as _ <-. done.
Qed.

(** Each call grows the set of cached keys by the theme's key, and by as
    many keys as it runs the creator. *)
Lemma createStyles_accounting styleCreator theme σ :
  let σ' := (createStyles styleCreator theme σ).2 in
  dom (styleCache σ') = {[cacheKey theme]} ∪ dom (styleCache σ) ∧
  creatorCalls σ' + size (dom (styleCache σ)) =
    creatorCalls σ + size (dom (styleCache σ')).
Proof.
  cbn zeta.
  destruct (styleCache σ !! cacheKey theme) as [styles|] eqn:Hkey.
  - rewrite (createStyles_hit _ _ _ styles) by done. cbn.
    split; [|done].
    assert (cacheKey theme ∈ dom (styleCache σ)) by (apply elem_of_dom; eauto).
    set_solver.
  - rewrite createStyles_miss by done. cbn.
    rewrite dom_insert_L. split; [done|].
    rewrite size_union, size_singleton; [lia|].
    apply not_elem_of_dom in Hkey. set_solver.
Qed.

Lemma callAll_accounting styleCreator (themes : list (Theme Tokens)) σ :
  let σ' := (callAll styleCreator themes σ).2 in
  dom (styleCache σ') = list_to_set (cacheKey <$> themes) ∪ dom (styleCache σ) ∧
  creatorCalls σ' + size (dom (styleCache σ)) =
    creatorCalls σ + size (dom (styleCache σ')).
Proof.
  cbn zeta. revert σ.
  induction themes as [|theme themes IH]; intros σ; cbn.
  - split; [set_solver|done].
  - pose proof (createStyles_accounting styleCreator theme σ) as [Hdom Hcalls].
    destruct (createStyles styleCreator theme σ) as [styles σ1]; cbn in *.
    specialize (IH σ1) as [IHdom IHcalls].
    destruct (callAll styleCreator themes σ1) as [rest σ2]; cbn in *.
    split; [rewrite IHdom, Hdom; set_solver | lia].
Qed.

(** However often and in whatever order an accessor is called, the style
    creator runs at most once per distinct cache key. *)
Lemma callAll_once_per_key styleCreator (themes : list (Theme Tokens)) σ :
  creatorCalls (callAll styleCreator themes σ).2 ≤
    creatorCalls σ + size (list_to_set (cacheKey <$> themes) : gset string).
Proof.
  pose proof (callAll_accounting styleCreator themes σ) as [Hdom Hcalls].
  cbn zeta in *.
  assert (size (dom (styleCache (callAll styleCreator themes σ).2)) ≤
          size (list_to_set (cacheKey <$> themes) : gset string) +
          size (dom (styleCache σ))) as Hsize.
  { rewrite Hdom. apply size_union_le. }
  lia.
Qed.

(** Hence at most once per distinct theme: calls restricted to [n] themes
    run the creator at most [n] times. *)
Lemma callAll_once_per_theme styleCreator (themes distinct : list (Theme Tokens)) σ :
  themes ⊆ distinct →
  creatorCalls (callAll styleCreator themes σ).2 ≤ creatorCalls σ + length distinct.
Proof.
  intros Hsub.
  pose proof (callAll_once_per_key styleCreator themes σ) as Hkeys.
  assert (size (list_to_set (cacheKey <$> themes) : gset string) ≤ length distinct);
    [|lia].
  transitivity (size (list_to_set (cacheKey <$> distinct) : gset string)).
  - apply subseteq_size. intros key.
    rewrite !elem_of_list_to_set, !list_elem_of_fmap.
    intros (theme & -> & Hin). exists theme. split; [done|]. by apply Hsub.
  - rewrite <-(length_fmap cacheKey distinct). apply size_list_to_set_le.
Qed.

(** The cache does not tell apart two themes with the same key: the
    second is answered with the object built for the first. *)
Lemma createStyles_collision styleCreator (theme1 theme2 : Theme Tokens) σ :
  cacheKey theme1 = cacheKey theme2 →
  let '(first, σ1) := createStyles styleCreator theme1 σ in
  createStyles styleCreator theme2 σ1 = (first, σ1).
Proof.
  intros Hkey.
  pose proof (createStyles_cached styleCreator theme1 σ) as Hcached.
  destruct (createStyles styleCreator theme1 σ) as [first σ1].
  apply createStyles_hit. by rewrite <-Hkey.
Qed.

(** Nor does it tell apart two style creators: the cache is one per
    module, not one per accessor. *)
Lemma createStyles_shared_between_creators (creator1 creator2 : StyleCreator Tokens T)
    theme σ :
  let '(first, σ1) := createStyles creator1 theme σ in
  createStyles creator2 theme σ1 = (first, σ1).
Proof.
  pose proof (createStyles_cached creator1 theme σ) as Hcached.
  destruct (createStyles creator1 theme σ) as [first σ1].
  by apply createStyles_hit.
Qed.

(** Two themes that agree on the two sampled colours share a key. *)
Lemma cacheKey_sampled (theme1 theme2 : Theme Tokens) :
  main (primary (colors theme1)) = main (primary (colors theme2)) →
  background_default (background (colors theme1)) =
    background_default (background (colors theme2)) →
  cacheKey theme1 = cacheKey theme2.
Proof. unfold cacheKey. by intros -> ->. Qed.

End MakeStylesProperties.

(** C1.  The style factory answers a theme from the cache entry of any
    earlier theme with the same two sampled colours.  [lightTheme] and
    [highContrastLight] agree on [colors.primary.main] and on
    [colors.background.default] and differ in [colors.text.primary]; the
    accessor of [labelStyles], called on the first and then on the second,
    returns for the second the object built from the first, whose content
    is not the style map of the second. *)
Theorem createStyles_key_collision_light :
  let theme1 := lightTheme tt in
  let theme2 := Inputs.highContrastLight in
  let '(first, σ1) := createStyles Inputs.labelStyles theme1 emptyStore in
  let '(second, σ2) := createStyles Inputs.labelStyles theme2 σ1 in
  main (primary (colors theme1)) = main (primary (colors theme2)) ∧
  background_default (background (colors theme1)) =
    background_default (background (colors theme2)) ∧
  text_primary (text (colors theme1)) ≠ text_primary (text (colors theme2)) ∧
  second = first ∧
  deref σ2 second = Some (Inputs.labelStyles theme1) ∧
  deref σ2 second ≠ Some (Inputs.labelStyles theme2).
Proof. vm_compute. repeat split; congruence. Qed.

(** The same holds between the variants made by [createVariants]: on one
    theme, the variant asked second is answered with the object of the
    variant asked first. *)
Example createVariants_share_cache :
  match Inputs.variants !! "label", Inputs.variants !! "box" with
  | Some label, Some box =>
      let '(first, σ1) := label (lightTheme tt) emptyStore in
      let '(second, σ2) := box (lightTheme tt) σ1 in
      second = first ∧
      deref σ2 second = Some (Inputs.labelStyles (lightTheme tt)) ∧
      deref σ2 second ≠ Some (Inputs.boxStyles (lightTheme tt))
  | _, _ => False
  end.
Proof. vm_compute. repeat split; congruence. Qed.

(** ** Variant lookup and text colours *)

Section LookupProperties.

Context {Tokens : Type}.

Implicit Types (theme : Theme Tokens) (scope : list (ThemeContextType Tokens)).

Lemma getProp_own {A} (o : gmap string A) (k : string) (a : A) :
  o !! k = Some a → JS.getProp o k = JS.Own a.
Proof. intros Hk. unfold JS.getProp. by rewrite Hk. Qed.

Lemma getProp_inherited {A} (o : gmap string A) (k : string) :
  o !! k = None → k ∈ JS.objectPrototypeKeys → JS.getProp o k = JS.Inherited k.
Proof. intros Hk Hin. unfold JS.getProp. rewrite Hk. by rewrite decide_True. Qed.

Lemma getProp_undefined {A} (o : gmap string A) (k : string) :
  o !! k = None → k ∉ JS.objectPrototypeKeys → JS.getProp o k = JS.Undefined.
Proof. intros Hk Hin. unfold JS.getProp. rewrite Hk. by rewrite decide_False. Qed.

Lemma colorMap_lookup_other theme (color : string) :
  color ∉ namedTextColors → colorMap theme !! color = None.
Proof.
  intros Hnot. unfold colorMap.
  rewrite !lookup_insert_ne, lookup_singleton_ne; [done|..];
    intros <-; apply Hnot; unfold namedTextColors; set_solver.
Qed.

(** A colour string that is neither one of the four names nor the name of
    a member of [Object.prototype] is passed through verbatim, for every
    theme. *)
Lemma getTextColor_custom theme (color : string) :
  color ∉ namedTextColors →
  color ∉ JS.objectPrototypeKeys →
  getTextColor color theme = ColorString color.
Proof.
  intros Hnamed Hproto. unfold getTextColor.
  by rewrite getProp_undefined by auto using colorMap_lookup_other.
Qed.

(** A string that names a member of [Object.prototype] is not: the lookup
    finds the inherited member, which is truthy, and that is what
    [getTextColor] returns. *)
Lemma getTextColor_inherited theme (color : string) :
  color ∈ JS.objectPrototypeKeys →
  getTextColor color theme = PrototypeMember color.
Proof.
  intros Hproto. unfold getTextColor.
  rewrite getProp_inherited; [done| |done].
  apply colorMap_lookup_other. intros Hnamed.
  unfold JS.objectPrototypeKeys, namedTextColors in *.
  set_unfold. naive_solver.
Qed.

(** C9.  For the colour string "toString", which is none of the four
    named keys, [getTextColor] does not return the string: under every
    theme it returns the [toString] member inherited by [colorMap]. *)
Theorem getTextColor_toString theme :
  ("toString" ∉ namedTextColors) ∧
  getTextColor "toString" theme = PrototypeMember "toString" ∧
  getTextColor "toString" theme ≠ ColorString "toString".
Proof.
  split; [|split].
  - unfold namedTextColors. set_unfold. naive_solver.
  - apply getTextColor_inherited. unfold JS.objectPrototypeKeys. set_solver.
  - rewrite getTextColor_inherited; [done|].
    unfold JS.objectPrototypeKeys. set_solver.
Qed.

(** The named keys resolve to the theme's text tokens (to the key itself
    should the token be the empty string). *)
Lemma getTextColor_named theme :
  let pick (token name : string) :=
    ColorString (if JS.truthy token then token else name) in
  getTextColor "primary" theme = pick (text_primary (text (colors theme))) "primary" ∧
  getTextColor "secondary" theme = pick (text_secondary (text (colors theme))) "secondary" ∧
  getTextColor "disabled" theme = pick (text_disabled (text (colors theme))) "disabled" ∧
  getTextColor "inverse" theme = pick (text_inverse (text (colors theme))) "inverse".
Proof.
  cbn zeta. unfold getTextColor, colorMap.
  repeat split;
    (erewrite getProp_own; [|by simplify_map_eq]);
    by destruct (JS.truthy _).
Qed.

(** The token lookup of [ThemedText] never throws inside a provider,
    whatever the colour string. *)
Lemma ThemedText_never_throws (context : ThemeContextType Tokens) scope
    (color : option string) :
  ThemedText (context :: scope) color =
    JS.Return (getTextColor (default "primary" color) (theme context)).
Proof. done. Qed.

Context {R : Type}.

Implicit Types (variants : gmap string (Theme Tokens → R)).



(** A variant name the object does not define but inherits raises no
    configuration error: the inherited member is called instead. *)
Lemma useVariant_inherited (context : ThemeContextType Tokens) scope variants
    (variant : string) :
  variants !! variant = None →
  variant ∈ JS.objectPrototypeKeys →
  useVariant (context :: scope) variants variant = JS.HostCall variant.
Proof.
  intros Hundef Hproto. unfold useVariant; cbn. by rewrite getProp_inherited.
Qed.

End LookupProperties.

(** C8.  [useVariant], asked for the variant "toString" of an object made
    by [createVariants] that defines only "label" and "box", raises no
    configuration error: it calls the inherited [Object.prototype.toString].
    (A name such as "ghost", neither defined nor inherited, does raise it,
    and the colour lookup of [ThemedText] returns for both names.) *)
Theorem useVariant_toString_no_error :
  Inputs.variants !! "toString" = None ∧
  useVariant Inputs.lightScope Inputs.variants "toString" = JS.HostCall "toString" ∧
  useVariant Inputs.lightScope Inputs.variants "toString" ≠
    JS.Throw (variantNotFound "toString") ∧
  useVariant Inputs.lightScope Inputs.variants "ghost" =
    JS.Throw (variantNotFound "ghost") ∧
  ThemedText Inputs.lightScope (Some "ghost") = JS.Return (ColorString "ghost") ∧
  ThemedText Inputs.lightScope (Some "toString") = JS.Return (PrototypeMember "toString").
Proof. vm_compute. repeat split; congruence. Qed.

(** ** The button *)

Section ButtonProperties.

Import Button.

Context {Event : Type}.

Implicit Types (p : ThemedButtonProps Event) (event : Event).

Lemma isDisabled_flags p :
  isDisabled p = true ↔ disabled p = Some true ∨ loading p = Some true.
Proof.
  unfold isDisabled.
  destruct (disabled p) as [[|]|], (loading p) as [[|]|]; cbn; naive_solver.
Qed.

(** C6.  Whatever the variant, colour and size, and whatever the press
    event, [handlePress] makes no call of the caller's [onPress] while the
    disabled flag or the loading flag is set; the host is also told that
    the button is disabled. *)
Theorem onPress_gated (variant : option ButtonVariant) (color : option ButtonColor)
    (size : option ButtonSize) (fullWidth loading disabled : option bool)
    (onPress : option (Event → list (Call Event))) (event : Event) :
  disabled = Some true ∨ loading = Some true →
  let p := {| variant := variant; color := color; size := size;
              loading := loading; fullWidth := fullWidth;
              disabled := disabled; onPress := onPress |} in
  handlePress p event = [] ∧
  touchable_onPress (ThemedButton p) event = [] ∧
  touchable_disabled (ThemedButton p) = true.
Proof.
  intros Hflag p.
  assert (isDisabled p = true) as Hdis by by apply isDisabled_flags.
  unfold ThemedButton, handlePress; cbn. by rewrite Hdis.
Qed.

(** With neither flag set the handler is called exactly once, with the
    event of the press. *)
Lemma onPress_called p event (handler : Event → list (Call Event)) :
  isDisabled p = false →
  onPress p = Some handler →
  handlePress p event = handler event.
Proof.
  intros Hen Hh. unfold handlePress. by rewrite Hen, Hh.
Qed.

End ButtonProperties.

Lemma onPress_gated_witness :
  Button.disabled Inputs.disabledButton = Some true ∧
  Button.handlePress Inputs.disabledButton 7 = [] ∧
  Button.touchable_onPress (Button.ThemedButton Inputs.disabledButton) 7 = [] ∧
  Button.touchable_disabled (Button.ThemedButton Inputs.disabledButton) = true.
Proof.
  split; [reflexivity|].
  apply (onPress_gated None None None None None (Some true)
           (Some Button.recordPress) 7).
  left; reflexivity.
Defined.

(** * Further properties *)

Local Open Scope list_scope.

(** ** The provider under sequences of actions *)

Section ProviderRuns.

Context {Tokens : Type} (sharedTokens : Tokens).

Implicit Types (props : ThemeProviderProps Tokens) (p : Mounted Tokens).
Implicit Types (x : ColorScheme) (e : ColorSchemeName).

Local Abbreviation resolved := (resolved sharedTokens).
Local Abbreviation step := (step sharedTokens).
Local Abbreviation run := (run sharedTokens).
Local Abbreviation render := (render sharedTokens).

Lemma run_step p (a : Action) (actions : list Action) :
  run p (a :: actions) = run (step p a) actions.
Proof. reflexivity. Qed.

Lemma run_snoc p (actions : list Action) (a : Action) :
  run p (actions ++ [a]) = step (run p actions) a.
Proof. apply foldl_snoc. Qed.

(** No action changes the props. *)
Lemma step_props p (a : Action) : props (step p a) = props p.
Proof. by destruct a. Qed.

Lemma run_props p (actions : list Action) : props (run p actions) = props p.
Proof.
  revert p. induction actions as [|a actions IH]; intros p; [done|].
  by rewrite run_step, IH, step_props.
Qed.

Lemma opposite_involutive x : opposite (opposite x) = x.
Proof. by destruct x. Qed.

(** A toggle flips the resolved scheme, from auto as from an explicit
    selection. *)
Lemma step_toggle_resolved p :
  resolved (step p CallToggleColorScheme) = opposite (resolved p).
Proof. by destruct p as [props [[|]|] []]. Qed.

Lemma run_changes_system p (changes : list ColorSchemeName) :
  systemColorScheme (run p (SystemPreferenceChanged <$> changes)) =
    default (systemColorScheme p) (last changes).
Proof.
  revert p. induction changes as [|e changes IH]; intros p; [done|].
  rewrite fmap_cons, run_step, IH, last_cons.
  by destruct (last changes).
Qed.

Lemma run_changes_selection p (changes : list ColorSchemeName) :
  userColorScheme (run p (SystemPreferenceChanged <$> changes)) = userColorScheme p.
Proof.
  revert p. induction changes as [|e changes IH]; intros p; [done|].
  by rewrite fmap_cons, run_step, IH.
Qed.

(** X1.  Under a fixed environment preference [n] toggles in a row leave
    the resolved scheme as it was when [n] is even and turn it into the
    other scheme when [n] is odd, from any provider state, auto
    included. *)
Theorem toggles_flip_by_parity p (n : nat) :
  resolved (run p (replicate n CallToggleColorScheme)) =
    if Nat.even n then resolved p else opposite (resolved p).
Proof.
  revert p. induction n as [|n IH]; intros p; [done|].
  rewrite replicate_S, run_step, IH, step_toggle_resolved, Nat.even_succ.
  rewrite <-Nat.negb_even. destruct (Nat.even n); cbn; [done|].
  apply opposite_involutive.
Qed.

(** X2.  From an explicit selection, toggles and changes of the
    environment preference in any order resolve to the selection when
    the number of toggles is even and to the other scheme when it is
    odd: the changes of the environment count for nothing. *)
Theorem explicit_selection_counts_toggles props x e
    (moves : list (option ColorSchemeName)) :
  resolved (run (mkMounted props (explicit x) e) (toggleOrChange <$> moves)) =
    if Nat.even (toggles moves) then x else opposite x.
Proof.
  revert x e. induction moves as [|[e'|] moves IH]; intros x e; [done|..].
  - rewrite fmap_cons, run_step. cbn [toggleOrChange].
    change (step (mkMounted props (explicit x) e) (SystemPreferenceChanged e'))
      with (mkMounted props (explicit x) e').
    rewrite IH. done.
  - rewrite fmap_cons, run_step. cbn [toggleOrChange].
    replace (step (mkMounted props (explicit x) e) CallToggleColorScheme)
      with (mkMounted props (explicit (opposite x)) e) by by destruct x.
    rewrite IH.
    replace (toggles (None :: moves)) with (S (toggles moves)) by done.
    rewrite Nat.even_succ, <-Nat.negb_even.
    destruct (Nat.even (toggles moves)); cbn; [done|].
    apply opposite_involutive.
Qed.

(** X3.  After [setAuto], in whatever state the provider was, the
    resolved scheme follows the environment: after any changes of the
    preference it is the scheme last reported, light when that one is
    unknown. *)
Theorem setAuto_follows_environment p (changes : list ColorSchemeName) :
  ∃ utils,
    useColorSchemeUtils [render p] = JS.Return utils ∧
    resolved (run (setUserColorScheme p (setAuto utils))
                  (SystemPreferenceChanged <$> changes)) =
      match default (systemColorScheme p) (last changes) with
      | system_dark => dark
      | system_light => light
      | system_unknown => light
      end.
Proof.
  eexists. split; [reflexivity|].
  rewrite resolved_unfold, run_changes_selection, run_changes_system. cbn.
  by destruct (default _ _).
Qed.

(** X4.  A provider given a [forcedTheme] hands that theme to its
    consumers after any sequence of selections, toggles and changes of
    the environment. *)
Theorem forced_theme_pinned p (forced : Theme Tokens) (actions : list Action) :
  forcedTheme (props p) = Some forced →
  theme (render (run p actions)) = forced.
Proof.
  intros Hforced.
  by rewrite context_theme, run_props, Hforced.
Qed.

(** X5.  A provider without [forcedTheme] hands out, after any sequence
    of actions, the canonical dark theme when its [isDark] flag is set
    and the canonical light theme otherwise, and exactly one of [isDark]
    and [isLight] is set. *)
Theorem canonical_theme_matches_flags p (actions : list Action) :
  forcedTheme (props p) = None →
  let context := render (run p actions) in
  theme context =
    (if isDark context then darkTheme sharedTokens else lightTheme sharedTokens) ∧
  isLight context = negb (isDark context) ∧
  isDark context = bool_decide (colorScheme context = dark).
Proof.
  intros Hnone context. subst context.
  destruct (context_flags sharedTokens (run p actions)) as (Hdark & Hlight & _).
  rewrite context_theme, run_props, Hnone, Hdark, Hlight.
  change (colorScheme (render (run p actions))) with (resolved (run p actions)).
  by destruct (resolved (run p actions)).
Qed.

End ProviderRuns.

Lemma forced_theme_pinned_witness :
  theme (render tt
    (run tt (mkMounted (mkProps None (Some Inputs.highContrastLight)) auto system_dark)
       [CallToggleColorScheme; CallSetColorScheme (explicit dark);
        SystemPreferenceChanged system_light]))
  = Inputs.highContrastLight.
Proof.
  apply (forced_theme_pinned tt
           (mkMounted (mkProps None (Some Inputs.highContrastLight)) auto system_dark)).
  reflexivity.
Defined.

Lemma canonical_theme_matches_flags_witness :
  let context :=
    render tt (run tt (mkMounted (mkProps None None) auto system_light)
                 [CallToggleColorScheme; SystemPreferenceChanged system_unknown]) in
  theme context = (if isDark context then darkTheme tt else lightTheme tt) ∧
  isLight context = negb (isDark context) ∧
  isDark context = bool_decide (colorScheme context = dark).
Proof.
  apply (canonical_theme_matches_flags tt
           (mkMounted (mkProps None None) auto system_light)).
  reflexivity.
Defined.

(** ** The style cache under sequences of operations *)

Section CacheRuns.

Context {Tokens T : Type}.

Implicit Types (styleCreator : StyleCreator Tokens T) (theme : Theme Tokens).
Implicit Types (σ : Store T) (ops : list (CacheOp Tokens T)).

Lemma applyOps_snoc σ ops (op : CacheOp Tokens T) :
  applyOps σ (ops ++ [op]) = applyOp (applyOps σ ops) op.
Proof. apply foldl_snoc. Qed.

Lemma applyOps_cons σ ops (op : CacheOp Tokens T) :
  applyOps σ (op :: ops) = applyOps (applyOp σ op) ops.
Proof. reflexivity. Qed.

(** The heap only grows: an object, once allocated, stays what it is. *)
Lemma createStyles_deref_stable styleCreator theme σ (styles : nat) (v : T) :
  deref σ styles = Some v →
  deref (createStyles styleCreator theme σ).2 styles = Some v.
Proof.
  intros Hv.
  destruct (styleCache σ !! cacheKey theme) as [cached|] eqn:Hkey.
  - by rewrite (createStyles_hit _ _ _ cached).
  - rewrite createStyles_miss by done. unfold deref in *; cbn.
    by apply lookup_app_l_Some.
Qed.

Lemma applyOp_deref_stable σ (op : CacheOp Tokens T) (styles : nat) (v : T) :
  deref σ styles = Some v → deref (applyOp σ op) styles = Some v.
Proof.
  destruct op as [styleCreator theme|]; cbn; [|done].
  apply createStyles_deref_stable.
Qed.

Lemma cacheOrigin_mono (calls calls' : list (StyleCreator Tokens T * Theme Tokens)) σ :
  calls ⊆ calls' → cacheOrigin calls σ → cacheOrigin calls' σ.
Proof.
  intros Hsub Hor key styles Hkey.
  destruct (Hor key styles Hkey) as (c & t & Hin & Hk & Hd).
  exists c, t. auto.
Qed.

(** A call keeps the invariant, for the calls made so far and this one. *)
Lemma createStyles_origin (calls : list (StyleCreator Tokens T * Theme Tokens))
    styleCreator theme σ :
  cacheOrigin calls σ →
  cacheOrigin (calls ++ [(styleCreator, theme)]) (createStyles styleCreator theme σ).2.
Proof.
  intros Hor.
  destruct (styleCache σ !! cacheKey theme) as [cached|] eqn:Hkey.
  - rewrite (createStyles_hit _ _ _ cached) by done. cbn.
    eapply cacheOrigin_mono; [|done]. set_solver.
  - rewrite createStyles_miss by done. cbn.
    intros key styles Hlook. cbn in Hlook.
    destruct (decide (cacheKey theme = key)) as [<-|Hne].
    + rewrite lookup_insert_eq in Hlook. injection Hlook as <-.
      exists styleCreator, theme. split; [set_solver|]. split; [done|].
      unfold deref; cbn. by rewrite list_lookup_middle.
    + rewrite lookup_insert_ne in Hlook by done.
      destruct (Hor key styles Hlook) as (c & t & Hin & Hk & Hd).
      exists c, t. split; [set_solver|]. split; [done|].
      unfold deref in *; cbn. by apply lookup_app_l_Some.
Qed.

Lemma accessorCalls_snoc ops (op : CacheOp Tokens T) :
  accessorCalls (ops ++ [op]) =
    (accessorCalls ops ++
       match op with
       | CallAccessor styleCreator theme => [(styleCreator, theme)]
       | ClearStyleCache => []
       end)%list.
Proof.
  unfold accessorCalls. rewrite omap_app. by destruct op.
Qed.

(** Whatever the operations since the module was loaded, the invariant
    holds. *)
Lemma applyOps_origin ops : cacheOrigin (accessorCalls ops) (applyOps emptyStore ops).
Proof.
  induction ops as [|op ops IH] using rev_ind.
  - intros key styles Hlook. cbn in Hlook. by rewrite lookup_empty in Hlook.
  - rewrite applyOps_snoc, accessorCalls_snoc.
    destruct op as [styleCreator theme|]; cbn.
    + by apply createStyles_origin.
    + intros key styles Hlook. cbn in Hlook. by rewrite lookup_empty in Hlook.
Qed.

(** What a call returns when the invariant holds before it. *)
Lemma createStyles_result_origin (calls : list (StyleCreator Tokens T * Theme Tokens))
    styleCreator theme σ :
  cacheOrigin calls σ →
  ∃ styleCreator0 theme0,
    (styleCreator0, theme0) ∈ calls ++ [(styleCreator, theme)] ∧
    cacheKey theme0 = cacheKey theme ∧
    deref (createStyles styleCreator theme σ).2 (createStyles styleCreator theme σ).1 =
      Some (styleCreator0 theme0).
Proof.
  intros Hor.
  pose proof (createStyles_origin calls styleCreator theme σ Hor) as Hor'.
  pose proof (createStyles_cached styleCreator theme σ) as Hcached.
  destruct (createStyles styleCreator theme σ) as [styles σ']; cbn in *.
  destruct (Hor' _ _ Hcached) as (c & t & Hin & Hk & Hd). eauto.
Qed.

(** X6.  Whatever accessors were called and however often the cache was
    cleared since the module was loaded, an accessor returns a reference
    to a live object, and that object is the style map which this call or
    an earlier call of some accessor computed for a theme with the same
    cache key. *)
Theorem accessor_returns_computed_object ops styleCreator theme :
  let σ := applyOps emptyStore ops in
  ∃ styleCreator0 theme0,
    (styleCreator0, theme0) ∈ accessorCalls ops ++ [(styleCreator, theme)] ∧
    cacheKey theme0 = cacheKey theme ∧
    deref (createStyles styleCreator theme σ).2 (createStyles styleCreator theme σ).1 =
      Some (styleCreator0 theme0).
Proof.
  cbn zeta. apply createStyles_result_origin, applyOps_origin.
Qed.

(** X7.  A style object is never replaced or changed: a reference that
    denotes a style map keeps denoting the same map after any further
    calls of accessors and any clearing of the cache. *)
Theorem style_objects_never_change σ ops (styles : nat) (v : T) :
  deref σ styles = Some v →
  deref (applyOps σ ops) styles = Some v.
Proof.
  revert σ. induction ops as [|op ops IH]; intros σ Hv; [done|].
  rewrite applyOps_cons. by apply IH, applyOp_deref_stable.
Qed.

(** X8.  An accessor returns the style map of the theme it is called on
    whenever every accessor call made since the module was loaded, on a
    theme with the same cache key, computed that same style map. *)
Theorem accessor_correct_when_keys_agree ops styleCreator theme :
  (∀ styleCreator0 theme0,
     (styleCreator0, theme0) ∈ accessorCalls ops →
     cacheKey theme0 = cacheKey theme →
     styleCreator0 theme0 = styleCreator theme) →
  let σ := applyOps emptyStore ops in
  deref (createStyles styleCreator theme σ).2 (createStyles styleCreator theme σ).1 =
    Some (styleCreator theme).
Proof.
  intros Hagree σ. subst σ.
  destruct (createStyles_result_origin (accessorCalls ops) styleCreator theme
              (applyOps emptyStore ops) (applyOps_origin ops))
    as (c & t & Hin & Hkey & Hd).
  rewrite Hd. f_equal.
  apply elem_of_app in Hin as [Hin|Hin].
  - by apply Hagree.
  - apply list_elem_of_singleton in Hin. by injection Hin as -> ->.
Qed.

(** On a cleared cache every call is a miss. *)
Lemma createStyles_after_clear styleCreator theme σ :
  createStyles styleCreator theme (clearStyleCache σ) =
    (length (heap σ),
     {| styleCache := {[cacheKey theme := length (heap σ)]};
        heap := heap σ ++ [styleCreator theme];
        creatorCalls := S (creatorCalls σ) |}).
Proof.
  rewrite createStyles_miss by apply lookup_empty. cbn.
  by rewrite insert_empty.
Qed.


(** X11.  All accessors share one cache: once one accessor has been
    called on a theme, the accessor of any other style creator returns,
    for that theme, the object of the first, which holds the style map
    of the first creator. *)
Theorem accessors_share_one_cache (creator1 creator2 : StyleCreator Tokens T) theme σ :
  let '(first, σ1) := createStyles creator1 theme (clearStyleCache σ) in
  let '(second, σ2) := createStyles creator2 theme σ1 in
  second = first ∧
  σ2 = σ1 ∧
  deref σ2 second = Some (creator1 theme).
Proof.
  rewrite createStyles_after_clear.
  rewrite (createStyles_hit _ _ _ (length (heap σ))) by apply lookup_singleton_eq.
  repeat split. unfold deref; cbn. by rewrite list_lookup_middle.
Qed.

(** X12.  Starting from an empty cache, a sequence of calls of one
    accessor runs the style creator exactly once for each distinct cache
    key among the themes it is called on. *)
Theorem creator_runs_once_per_key styleCreator (themes : list (Theme Tokens)) :
  creatorCalls (callAll styleCreator themes emptyStore).2 =
    size (list_to_set (cacheKey <$> themes) : gset string).
Proof.
  destruct (callAll_accounting styleCreator themes emptyStore) as [Hdom Hcalls].
  cbn zeta in *. cbn [emptyStore styleCache creatorCalls] in Hcalls, Hdom.
  rewrite dom_empty_L in Hdom, Hcalls.
  rewrite (right_id_L ∅ (∪)) in Hdom.
  rewrite size_empty in Hcalls.
  rewrite <-Hdom. lia.
Qed.

End CacheRuns.

(** ** The style factory behind a provider *)

Section StyleClients.

Context {Tokens T : Type} (sharedTokens : Tokens).

Implicit Types (styleCreator : StyleCreator Tokens T) (σ : Store T).




(** X13.  Under providers without [forcedTheme], however many renders
    call an accessor on the theme they are handed, the style creator runs
    at most twice. *)
Theorem provider_themes_cost_two_runs styleCreator (renders : list (Mounted Tokens)) σ :
  Forall (λ p, forcedTheme (props p) = None) renders →
  creatorCalls (callAll styleCreator (theme ∘ render sharedTokens <$> renders) σ).2
    ≤ creatorCalls σ + 2.
Proof.
  intros Hnone.
  apply (callAll_once_per_theme styleCreator _
           [lightTheme sharedTokens; darkTheme sharedTokens]).
  intros t Hin. apply list_elem_of_fmap in Hin as (p & -> & Hp).
  rewrite Forall_forall in Hnone. specialize (Hnone p Hp).
  change ((theme ∘ render sharedTokens) p) with (theme (render sharedTokens p)).
  rewrite context_theme, Hnone.
  destruct (resolved sharedTokens p); set_solver.
Qed.

(** X14.  Outside of any provider every hook and component that reads the
    theme fails with the provider's configuration error before it does
    anything else: no style creator runs, the store is left as it is, and
    [useVariant] reports the missing provider even for a variant that
    does not exist. *)
Theorem hooks_fail_outside_provider styleCreator σ {D R Event Num : Type}
    (responsive : Theme Tokens → D → T) (dimensions : D)
    (dimensionCreator : Theme Tokens → D)
    (variants : gmap string (Theme Tokens → R)) (variant : string)
    (color : option string)
    (read : ButtonStyles.TokenReader Tokens Num) (OS : ButtonStyles.Platform)
    (p : Button.ThemedButtonProps Event) :
  let missingProvider := JS.mkError "useTheme must be used within a ThemeProvider" in
  createStylesHook styleCreator [] σ = (JS.Throw missingProvider, σ) ∧
  useMakeStyles styleCreator [] σ = (JS.Throw missingProvider, σ) ∧
  useResponsiveStyles responsive dimensions [] σ = (JS.Throw missingProvider, σ) ∧
  useThemeDimensions dimensionCreator [] = JS.Throw missingProvider ∧
  useVariant [] variants variant = JS.Throw missingProvider ∧
  useColorSchemeUtils (Tokens:=Tokens) [] = JS.Throw missingProvider ∧
  ThemedText (Tokens:=Tokens) [] color = JS.Throw missingProvider ∧
  ButtonStyles.ThemedButtonView read OS [] p = JS.Throw missingProvider.
Proof. done. Qed.


End StyleClients.

Lemma style_objects_never_change_witness :
  let σ := (createStyles Inputs.labelStyles (lightTheme tt) emptyStore).2 in
  deref σ 0 = Some "#2d3748" ∧
  deref (applyOps σ [ClearStyleCache; CallAccessor Inputs.boxStyles (darkTheme tt)]) 0
    = Some "#2d3748".
Proof.
  split; [reflexivity|].
  apply (style_objects_never_change
           (createStyles Inputs.labelStyles (lightTheme tt) emptyStore).2
           [ClearStyleCache; CallAccessor Inputs.boxStyles (darkTheme tt)] 0 "#2d3748").
  reflexivity.
Defined.

Lemma accessor_correct_when_keys_agree_witness :
  let σ := applyOps emptyStore [CallAccessor Inputs.labelStyles (darkTheme tt)] in
  deref (createStyles Inputs.labelStyles (lightTheme tt) σ).2
        (createStyles Inputs.labelStyles (lightTheme tt) σ).1
    = Some (Inputs.labelStyles (lightTheme tt)).
Proof.
  apply (accessor_correct_when_keys_agree
           [CallAccessor Inputs.labelStyles (darkTheme tt)]
           Inputs.labelStyles (lightTheme tt)).
  intros styleCreator0 theme0 Hin Hkey.
  apply list_elem_of_singleton in Hin. injection Hin as -> ->.
  vm_compute in Hkey. discriminate Hkey.
Defined.

Lemma provider_themes_cost_two_runs_witness :
  creatorCalls
    (callAll Inputs.labelStyles
       (theme ∘ render tt <$>
          [ mkMounted (mkProps None None) auto system_dark;
            mkMounted (mkProps None None) (explicit light) system_dark;
            mkMounted (mkProps None None) auto system_dark ])
       emptyStore).2
    ≤ creatorCalls (emptyStore (T:=string)) + 2.
Proof.
  apply (provider_themes_cost_two_runs tt Inputs.labelStyles).
  repeat constructor.
Defined.


(** ** Text colours in a provider *)

Section TextColours.

Context {Tokens : Type}.

Implicit Types (context : ThemeContextType Tokens) (scope : list (ThemeContextType Tokens)).

(** X16.  Inside a provider, [ThemedText] given a colour string that is
    neither one of the four colour names nor the name of a member of
    [Object.prototype] renders with that very string as its colour,
    whatever the theme. *)
Theorem ThemedText_passes_custom_colour context scope (color : string) :
  color ∉ namedTextColors →
  color ∉ JS.objectPrototypeKeys →
  ThemedText (context :: scope) (Some color) = JS.Return (ColorString color).
Proof.
  intros Hnamed Hproto.
  rewrite ThemedText_never_throws. cbn [from_option id].
  by rewrite getTextColor_custom.
Qed.

(** X17.  Inside a provider, [ThemedText] given one of the four colour
    names renders with the theme's text token of that name, or with the
    name itself should the token be the empty string; given no colour it
    renders as it does for "primary". *)
Theorem ThemedText_named_colours context scope :
  let tokens := text (colors (theme context)) in
  let pick (token name : string) :=
    JS.Return (ColorString (if JS.truthy token then token else name)) in
  ThemedText (context :: scope) (Some "primary") = pick (text_primary tokens) "primary" ∧
  ThemedText (context :: scope) (Some "secondary") = pick (text_secondary tokens) "secondary" ∧
  ThemedText (context :: scope) (Some "disabled") = pick (text_disabled tokens) "disabled" ∧
  ThemedText (context :: scope) (Some "inverse") = pick (text_inverse tokens) "inverse" ∧
  ThemedText (context :: scope) None = ThemedText (context :: scope) (Some "primary").
Proof.
  cbn zeta.
  destruct (getTextColor_named (theme context)) as (Hp & Hs & Hd & Hi).
  cbn zeta in Hp, Hs, Hd, Hi.
  rewrite !ThemedText_never_throws. cbn [from_option id].
  by rewrite Hp, Hs, Hd, Hi.
Qed.

End TextColours.

Lemma ThemedText_passes_custom_colour_witness :
  ThemedText Inputs.lightScope (Some "rgba(255, 0, 0, 0.5)") =
    JS.Return (ColorString "rgba(255, 0, 0, 0.5)").
Proof.
  apply (ThemedText_passes_custom_colour
           (ThemeProvider tt (mkProps None None) system_light auto) []
           "rgba(255, 0, 0, 0.5)").
  - unfold namedTextColors. set_unfold. naive_solver.
  - unfold JS.objectPrototypeKeys. set_unfold. naive_solver.
Defined.

(** ** The look of the button *)

Section ButtonLook.

Import ButtonStyles.

Context {Tokens Num : Type} (read : TokenReader Tokens Num) (OS : Platform).

Implicit Types (variant : Button.ButtonVariant) (color : Button.ButtonColor).
Implicit Types (theme : Theme Tokens).
Implicit Types (base : gmap string (StyleValue Num)).
Implicit Types (entries : list (string * StyleValue Num)).

Lemma assign_cons base (key : string) (value : StyleValue Num) entries :
  assign base ((key, value) :: entries) = assign (<[key := value]> base) entries.
Proof. reflexivity. Qed.

(** A property set before an object literal's own entries survives them
    when none of them has its name. *)
Lemma assign_insert_commute base entries (key : string) (value : StyleValue Num) :
  key ∉ entries.*1 →
  assign (<[key := value]> base) entries = <[key := value]> (assign base entries).
Proof.
  revert base. induction entries as [|[k v] entries IH]; intros base Hnot; [done|].
  rewrite !assign_cons.
  rewrite fmap_cons, not_elem_of_cons in Hnot. destruct Hnot as [Hne Hnot].
  rewrite insert_insert_ne by done. by apply IH.
Qed.




(** X19.  The spinner of a loading button has the colour the label has
    when the button is enabled: the contrast colour of the button's
    colour role for the filled and elevated variants, its main colour for
    the outlined and text variants. *)
Theorem spinner_has_enabled_label_colour variant color
    (buttonSize : Button.ButtonSize) theme :
  getTextStyles read variant color buttonSize false theme !! "color" =
    Some (str (getSpinnerColor variant color theme)) ∧
  getSpinnerColor variant color theme =
    match variant with
    | Button.filled | Button.elevated => contrast (getButtonColor color theme)
    | Button.outlined | Button.textual => main (getButtonColor color theme)
    end.
Proof.
  split; [|by destruct variant].
  destruct variant, buttonSize; vm_compute; done.
Qed.

(** X20.  A button style has a border of width 1 exactly when the variant
    is outlined, enabled or disabled, whatever the colour, size and
    width. *)
Theorem border_iff_outlined variant color (buttonSize : Button.ButtonSize)
    (disabled fullWidth : bool) theme :
  getButtonStyles read OS variant color buttonSize disabled fullWidth theme
    !! "borderWidth" = Some (number 1)
  ↔ variant = Button.outlined.
Proof.
  destruct variant, buttonSize, disabled, fullWidth; vm_compute; split; congruence.
Qed.

(** X21.  [fullWidth] adds the property [width: '100%'] to the button
    style and changes nothing else; without it the style has no
    width. *)
Theorem fullWidth_only_adds_width variant color (buttonSize : Button.ButtonSize)
    (disabled : bool) theme :
  getButtonStyles read OS variant color buttonSize disabled true theme =
    <["width" := str "100%"]>
      (getButtonStyles read OS variant color buttonSize disabled false theme) ∧
  getButtonStyles read OS variant color buttonSize disabled false theme !! "width" = None.
Proof.
  split; [|destruct variant, buttonSize, disabled; vm_compute; done].
  unfold getButtonStyles, spread.
  rewrite (left_id_L ∅ (∪)).
  change (assign ∅ [("width", str "100%")])
    with (<["width" := str "100%"]> (∅ : gmap string (StyleValue Num))).
  rewrite <-insert_union_l, (left_id_L ∅ (∪)).
  destruct disabled; [|destruct variant];
    (apply assign_insert_commute; cbn; set_unfold; naive_solver).
Qed.

(** The minimum height of a button is 36, 44 and 52 for the small,
    medium and large size on iOS, and 40, 48 and 56 on every other
    platform, whatever the theme. *)
Lemma button_min_height (buttonSize : Button.ButtonSize) theme :
  getSizeStyles read OS buttonSize theme !! "minHeight" =
    Some (number
      (match OS, buttonSize with
       | ios, Button.small => 36
       | ios, Button.medium => 44
       | ios, Button.large => 52
       | _, Button.small => 40
       | _, Button.medium => 48
       | _, Button.large => 56
       end)).
Proof. destruct OS, buttonSize; vm_compute; done. Qed.

(** X22.  Inside a provider a button shows a spinner exactly when its
    [loading] flag is set, and a button that shows a spinner calls no
    handler when pressed. *)
Theorem spinner_iff_loading {Event : Type}
    (context : ThemeContextType Tokens) (scope : list (ThemeContextType Tokens))
    (p : Button.ThemedButtonProps Event) :
  ∃ view,
    ThemedButtonView read OS (context :: scope) p = JS.Return view ∧
    (is_Some (spinner view) ↔ Button.loading p = Some true) ∧
    (is_Some (spinner view) → ∀ event : Event, Button.handlePress p event = []).
Proof.
  eexists. split; [reflexivity|]. cbn [spinner].
  assert (is_Some (if default false (Button.loading p)
                   then Some (getSpinnerColor
                                (default Button.filled (Button.variant p))
                                (default Button.primary (Button.color p))
                                (theme context))
                   else None)
          ↔ Button.loading p = Some true) as Hiff.
  { destruct (Button.loading p) as [[|]|]; cbn; split;
      intros H; try done; by destruct H. }
  split; [done|].
  intros Hspin event. apply Hiff in Hspin.
  unfold Button.handlePress.
  assert (Button.isDisabled p = true) as -> by (apply isDisabled_flags; by right).
  done.
Qed.

End ButtonLook.


(** ** The matchers on the button *)

Section Matchers.

Import TestUtils.

Context {Event : Type}.

(** X23.  The props [ThemedButton] puts on its touchable satisfy
    [toBeAccessible] for every button, whatever the type and the children
    of the received element. *)
Theorem themed_button_is_accessible (p : Button.ThemedButtonProps Event)
    (elementType : string) (elementChildren : list Child) :
  toBeAccessible {| element_type := elementType;
                    props := touchableProps p;
                    children := elementChildren |} = true.
Proof.
  unfold toBeAccessible; cbn.
  rewrite (bool_decide_eq_true_2 (Some "button" = Some "button")) by done.
  by rewrite orb_true_r.
Qed.

(** X24.  The props [ThemedButton] puts on its touchable satisfy
    [toBeResponsive] exactly when neither the [disabled] nor the
    [loading] flag of the button is set. *)
Theorem themed_button_responsive_iff_enabled (p : Button.ThemedButtonProps Event)
    (elementType : string) (elementChildren : list Child) :
  toBeResponsive {| element_type := elementType;
                    props := touchableProps p;
                    children := elementChildren |}
  = negb (Button.isDisabled p) ∧
  (Button.isDisabled p = true ↔
     Button.disabled p = Some true ∨ Button.loading p = Some true).
Proof.
  split; [|apply isDisabled_flags].
  unfold toBeResponsive; cbn.
  by destruct (Button.isDisabled p).
Qed.

End Matchers.
